(** * L4-Question_Answer.ipynb: question answering over a CSV catalog

    The notebook is straight-line Python that drives third-party
    libraries (python-dotenv, pandas, LangChain, IPython).  None of the
    library code belongs to the repository, so every library call is an
    uninterpreted operation here: the notebook is a program over the
    signature [LibCall], and a [Library] gives the calls a meaning (a
    result or a raised exception, and a new state of the outside world).
    What the notebook itself computes -- the indexing [docs[0]] of lines
    145 and 187, the list comprehension and the [join] of line 202, the
    f-string of lines 212-213, the rebinding of [loader], [docs], [query]
    and [response] -- is written out as Rocq functions and lets.

    The cells are run top to bottom, once (Run All); an exception ends the
    run.  Line numbers are those of the .ipynb file.

    [print] and the value of a cell's last expression are the notebook's
    own outputs.  [display(Markdown(response))] is a call into IPython
    with the reply as its argument: IPython decides from the string what
    to show (a string that starts with [http] is fetched, one that names
    an existing path is read) and may raise, so it is a library call like
    the others.  What a library prints on its own (the chain of line 223
    is made with [verbose=True]) is part of its effect on the outside
    world. *)

From Stdlib Require Import List String ZArith Lia Floats Bool.
Import ListNotations.
Local Open Scope string_scope.

Set Implicit Arguments.

(** ** Python values the notebook handles *)

(** An exception: its class and its message. *)
Record PyExn : Type := Exn { exn_class : string; exn_msg : string }.

Definition IndexError : PyExn := Exn "IndexError" "list index out of range".

(** [langchain.schema.Document]: the notebook reads [page_content] only. *)
Record Document : Type := mkDocument {
  page_content : string;
  metadata : list (string * string)
}.

(** [l[i]] on a Python list: a negative index counts from the end, an
    index out of range raises [IndexError]. *)
Definition py_getitem {A : Type} (l : list A) (i : Z) : PyExn + A :=
  let n := Z.of_nat (List.length l) in
  let j := if (i <? 0)%Z then (i + n)%Z else i in
  if ((j <? 0)%Z || (n <=? j)%Z)%bool then inl IndexError
  else match nth_error l (Z.to_nat j) with
       | Some x => inr x
       | None => inl IndexError
       end.

(** [range(n)] *)
Definition py_range (n : nat) : list Z := map Z.of_nat (seq 0 n).

(** [[f(x) for x in xs]] where [f] may raise: the first exception ends the
    comprehension. *)
Fixpoint comprehension {A B : Type} (f : A -> PyExn + B) (xs : list A)
  : PyExn + list B :=
  match xs with
  | [] => inr []
  | x :: xs' =>
      match f x with
      | inl e => inl e
      | inr y =>
          match comprehension f xs' with
          | inl e => inl e
          | inr ys => inr (y :: ys)
          end
      end
  end.

(** [sep.join(parts)] *)
Definition py_join (sep : string) (parts : list string) : string :=
  String.concat sep parts.

(** [l[:n]] *)
Definition py_slice_to {A : Type} (n : nat) (l : list A) : list A := firstn n l.

(** ** The libraries' objects and calls *)

(** The classes of the libraries are opaque to the notebook: it only
    passes their instances on. *)
Record LibTypes : Type := {
  Loader : Type;        (* langchain.document_loaders.CSVLoader *)
  DataFrame : Type;     (* pandas.DataFrame *)
  IndexCreator : Type;  (* langchain.indexes.VectorstoreIndexCreator *)
  Index : Type;         (* the VectorStoreIndexWrapper from_loaders returns *)
  Embeddings : Type;    (* langchain.embeddings.OpenAIEmbeddings *)
  Scalar : Type;        (* a component of an embedding vector *)
  VectorStore : Type;   (* langchain.vectorstores.DocArrayInMemorySearch *)
  Retriever : Type;     (* db.as_retriever() *)
  LLM : Type;           (* langchain.chat_models.ChatOpenAI *)
  Chain : Type          (* langchain.chains.RetrievalQA *)
}.

(** The one vector store class the notebook names. *)
Inductive VectorStoreCls : Type := DocArrayInMemorySearch.

(** The names of the operations, for traces. *)
Inductive Op : Type :=
| op_find_dotenv | op_load_dotenv
| op_CSVLoader | op_read_csv | op_head
| op_VectorstoreIndexCreator | op_from_loaders | op_index_query
| op_load | op_OpenAIEmbeddings | op_embed_query
| op_from_documents | op_similarity_search | op_as_retriever
| op_ChatOpenAI | op_call_as_llm
| op_from_chain_type | op_chain_run
| op_cell_value | op_print | op_display.

Section Notebook.

Variable T : LibTypes.

(** A call into a library, indexed by the type of what it returns.  The
    arguments are those written in the notebook; a keyword argument the
    notebook leaves out at one call site and gives at another is an
    [option].  [display_Markdown data] is [display(Markdown(data))]: the
    notebook keeps nothing between the two, so they are one operation. *)
Inductive LibCall : Type -> Type :=
| find_dotenv : LibCall string
| load_dotenv (path : string) : LibCall bool
| CSVLoader (file_path : string) : LibCall (Loader T)
| read_csv (file : string) (index_col : Z) : LibCall (DataFrame T)
| head (df : DataFrame T) : LibCall (DataFrame T)
| VectorstoreIndexCreator (vectorstore_cls : VectorStoreCls)
    (embedding : option (Embeddings T)) : LibCall (IndexCreator T)
| from_loaders (creator : IndexCreator T) (loaders : list (Loader T))
    : LibCall (Index T)
| index_query (index : Index T) (question : string) (llm : option (LLM T))
    : LibCall string
| load (loader : Loader T) : LibCall (list Document)
| OpenAIEmbeddings : LibCall (Embeddings T)
| embed_query (embeddings : Embeddings T) (text : string)
    : LibCall (list (Scalar T))
| from_documents (documents : list Document) (embedding : Embeddings T)
    : LibCall (VectorStore T)
| similarity_search (db : VectorStore T) (query : string)
    : LibCall (list Document)
| as_retriever (db : VectorStore T) : LibCall (Retriever T)
| ChatOpenAI (temperature : float) : LibCall (LLM T)
| call_as_llm (llm : LLM T) (message : string) : LibCall string
| from_chain_type (llm : LLM T) (chain_type : string)
    (retriever : Retriever T) (verbose : bool) : LibCall (Chain T)
| chain_run (chain : Chain T) (query : string) : LibCall string
| display_Markdown (data : string) : LibCall unit.

Definition op_of {X : Type} (c : LibCall X) : Op :=
  match c with
  | find_dotenv => op_find_dotenv
  | load_dotenv _ => op_load_dotenv
  | CSVLoader _ => op_CSVLoader
  | read_csv _ _ => op_read_csv
  | head _ => op_head
  | VectorstoreIndexCreator _ _ => op_VectorstoreIndexCreator
  | from_loaders _ _ => op_from_loaders
  | index_query _ _ _ => op_index_query
  | load _ => op_load
  | OpenAIEmbeddings => op_OpenAIEmbeddings
  | embed_query _ _ => op_embed_query
  | from_documents _ _ => op_from_documents
  | similarity_search _ _ => op_similarity_search
  | as_retriever _ => op_as_retriever
  | ChatOpenAI _ => op_ChatOpenAI
  | call_as_llm _ _ => op_call_as_llm
  | from_chain_type _ _ _ _ => op_from_chain_type
  | chain_run _ _ => op_chain_run
  | display_Markdown _ => op_display
  end.

(** What the notebook's own statements show: the value of a cell's last
    expression, or a [print]. *)
Inductive Value : Type :=
| VDataFrame (df : DataFrame T)
| VDocument (d : Document)
| VInt (n : Z)
| VFloats (v : list (Scalar T))
| VStr (s : string).

Inductive Output : Type :=
| CellValue (v : Value)
| Printed (v : Value).

Definition op_of_output (o : Output) : Op :=
  match o with
  | CellValue _ => op_cell_value
  | Printed _ => op_print
  end.

(** ** Programs *)

(** Python statements in sequence: a library call whose result the rest
    of the program may use, an output, an exception raised by the
    program's own code, and [try: body except Exception as e: handler(e)]
    followed by the rest.  Every node carries the line it is written on. *)
Inductive Prog : Type -> Type :=
| Ret {R : Type} (r : R) : Prog R
| Raise {R : Type} (line : nat) (e : PyExn) : Prog R
| Call {R X : Type} (line : nat) (c : LibCall X) (k : X -> Prog R) : Prog R
| Out {R : Type} (line : nat) (o : Output) (k : Prog R) : Prog R
| Try {R A : Type} (body : Prog A) (handler : PyExn -> Prog A)
    (k : A -> Prog R) : Prog R.

Fixpoint bind {A B : Type} (p : Prog A) : (A -> Prog B) -> Prog B :=
  match p in Prog A0 return (A0 -> Prog B) -> Prog B with
  | Ret a => fun f => f a
  | Raise line e => fun _ => Raise line e
  | Call line c k => fun f => Call line c (fun x => bind (k x) f)
  | Out line o k => fun f => Out line o (bind k f)
  | Try body handler k => fun f => Try body handler (fun a => bind (k a) f)
  end.

Definition call {X : Type} (line : nat) (c : LibCall X) : Prog X :=
  Call line c (fun x => Ret x).

Definition out (line : nat) (o : Output) : Prog unit :=
  Out line o (Ret tt).

(** The notebook's own fallible expressions raise on the line they are
    written on. *)
Definition lift {A : Type} (line : nat) (r : PyExn + A) : Prog A :=
  match r with
  | inl e => Raise line e
  | inr a => Ret a
  end.

End Notebook.

Arguments find_dotenv {T}.
Arguments load_dotenv {T} path.
Arguments CSVLoader {T} file_path.
Arguments read_csv {T} file index_col.
Arguments head {T} df.
Arguments VectorstoreIndexCreator {T} vectorstore_cls embedding.
Arguments from_loaders {T} creator loaders.
Arguments index_query {T} index question llm.
Arguments load {T} loader.
Arguments OpenAIEmbeddings {T}.
Arguments embed_query {T} embeddings text.
Arguments from_documents {T} documents embedding.
Arguments similarity_search {T} db query.
Arguments as_retriever {T} db.
Arguments ChatOpenAI {T} temperature.
Arguments call_as_llm {T} llm message.
Arguments from_chain_type {T} llm chain_type retriever verbose.
Arguments chain_run {T} chain query.
Arguments display_Markdown {T} data.
Arguments VDataFrame {T} df.
Arguments VFloats {T} v.
Arguments CellValue {T} v.
Arguments Printed {T} v.
Arguments Call {T R X} line c k.
Arguments Try {T R A} body handler k.
Arguments call {T X} line c.
Arguments out {T} line o.
Arguments lift {T A} line r.
Arguments bind {T A B} p _.
Arguments op_of {T X} c.
Arguments op_of_output {T} o.
Arguments Ret {T R} r.
Arguments Raise {T R} line e.
Arguments Out {T R} line o k.
Arguments VDocument {T} d.
Arguments VInt {T} n.
Arguments VStr {T} s.

Declare Scope prog_scope.
Delimit Scope prog_scope with prog.
Notation "x <- p ;; q" := (bind p (fun x => q))
  (at level 61, p at next level, right associativity) : prog_scope.
Notation "p ;;; q" := (bind p (fun _ => q))
  (at level 61, right associativity) : prog_scope.

(** ** Running a program against the libraries *)

(** What one run leaves behind, in the order it happened. *)
Inductive Event (T : LibTypes) : Type :=
| Returned {X : Type} (line : nat) (c : LibCall T X) (x : X)
| Failed {X : Type} (line : nat) (c : LibCall T X) (e : PyExn)
| Threw (line : nat) (e : PyExn)
| Shown (line : nat) (o : Output T).

Arguments Returned {T X} line c x.
Arguments Failed {T X} line c e.
Arguments Threw {T} line e.
Arguments Shown {T} line o.

Record Run (T : LibTypes) (W R : Type) : Type := mkRun {
  trace : list (Event T);
  outcome : PyExn + R;
  world : W
}.

Arguments mkRun {T W R} trace outcome world.
Arguments trace {T W R} r.
Arguments outcome {T W R} r.
Arguments world {T W R} r.

(** The libraries and the services behind them: every call returns a
    value or raises, and may change the outside world [W] (the files, the
    hosted embedding and chat endpoints). *)
Definition Library (T : LibTypes) (W : Type) : Type :=
  forall X : Type, LibCall T X -> W -> (PyExn + X) * W.

Section Semantics.

Variable T : LibTypes.
Variable W : Type.
Variable lib : Library T W.

Definition after {R : Type} (evs : list (Event T)) (r : Run T W R) : Run T W R :=
  mkRun (evs ++ trace r) (outcome r) (world r).

Fixpoint run {R : Type} (p : Prog T R) (w : W) : Run T W R :=
  match p with
  | Ret r => mkRun [] (inr r) w
  | Raise line e => mkRun [Threw line e] (inl e) w
  | Call line c k =>
      match lib c w with
      | (inl e, w') => mkRun [Failed line c e] (inl e) w'
      | (inr x, w') => after [Returned line c x] (run (k x) w')
      end
  | Out line o k => after [Shown line o] (run k w)
  | Try body handler k =>
      let rb := run body w in
      match outcome rb with
      | inr a => after (trace rb) (run (k a) (world rb))
      | inl e =>
          let rh := run (handler e) (world rb) in
          match outcome rh with
          | inr a => after (trace rb ++ trace rh) (run (k a) (world rh))
          | inl e' => mkRun (trace rb ++ trace rh) (inl e') (world rh)
          end
      end
  end.

End Semantics.

(** ** Reading a trace *)

Section Traces.

Variable T : LibTypes.

(** Where and what: the line and the operation of every library call and
    every output.  An exception the notebook's own indexing raises is the
    end of the run, not an operation. *)
Definition site (ev : Event T) : list (nat * Op) :=
  match ev with
  | Returned line c _ => [(line, op_of c)]
  | Failed line c _ => [(line, op_of c)]
  | Threw _ _ => []
  | Shown line o => [(line, op_of_output o)]
  end.

Definition sites (tr : list (Event T)) : list (nat * Op) := flat_map site tr.

(** The exceptions library calls raised. *)
Definition failures (tr : list (Event T)) : list PyExn :=
  flat_map (fun ev => match ev with Failed _ _ e => [e] | _ => [] end) tr.

(** The calls whose result the notebook binds to [response]. *)
Definition produces_answer {X : Type} (c : LibCall T X) : bool :=
  match c with
  | index_query _ _ _ | call_as_llm _ _ | chain_run _ _ => true
  | _ => false
  end.

Definition answer_of {X : Type} (c : LibCall T X) : X -> list string :=
  match c in LibCall _ X0 return X0 -> list string with
  | index_query _ _ _ => fun r => [r]
  | call_as_llm _ _ => fun r => [r]
  | chain_run _ _ => fun r => [r]
  | _ => fun _ => []
  end.

(** The answers a run obtained, in order. *)
Definition answers (tr : list (Event T)) : list string :=
  flat_map (fun ev => match ev with Returned _ c x => answer_of c x | _ => [] end) tr.

(** The messages handed to [llm.call_as_llm], whether the call returned
    or raised. *)
Definition message_of {X : Type} (c : LibCall T X) : list string :=
  match c with
  | call_as_llm _ m => [m]
  | _ => []
  end.

Definition prompts (tr : list (Event T)) : list string :=
  flat_map (fun ev => match ev with
                      | Returned _ c _ => message_of c
                      | Failed _ c _ => message_of c
                      | _ => []
                      end) tr.

(** The document lists [db.similarity_search] returned. *)
Definition retrieved_of {X : Type} (c : LibCall T X) : X -> list (list Document) :=
  match c in LibCall _ X0 return X0 -> list (list Document) with
  | similarity_search _ _ => fun ds => [ds]
  | _ => fun _ => []
  end.

Definition retrieved (tr : list (Event T)) : list (list Document) :=
  flat_map (fun ev => match ev with Returned _ c x => retrieved_of c x | _ => [] end) tr.

(** Everything shown, with its line. *)
Definition outputs (tr : list (Event T)) : list (nat * Output T) :=
  flat_map (fun ev => match ev with Shown line o => [(line, o)] | _ => [] end) tr.

(** The strings handed to [display(Markdown(...))], whether the call
    returned or raised. *)
Definition display_data {X : Type} (c : LibCall T X) : list string :=
  match c with
  | display_Markdown s => [s]
  | _ => []
  end.

Definition handed_to_display (tr : list (Event T)) : list string :=
  flat_map (fun ev => match ev with
                      | Returned _ c _ => display_data c
                      | Failed _ c _ => display_data c
                      | _ => []
                      end) tr.

Definition shown_at (line : nat) (tr : list (Event T)) : list (Output T) :=
  map snd (filter (fun lo => Nat.eqb (fst lo) line) (outputs tr)).

End Traces.

(** ** The notebook *)

Section Cells.

Variable T : LibTypes.

Local Open Scope prog_scope.

Definition file : string := "OutdoorClothingCatalog_1000.csv".

(** The question of lines 124-125, 212-213 and 230-231: the three literals
    are broken over two lines at different places and spell the same
    text. *)
Definition question : string :=
  "Please list all your shirts with sun protection in a table in markdown and summarize each one.".

(** Line 202: ["".join([docs[i].page_content for i in range(len(docs))])]. *)
Definition qdocs_of (docs : list Document) : PyExn + string :=
  match comprehension
          (fun i => match py_getitem docs i with
                    | inl e => inl e
                    | inr d => inr (page_content d)
                    end)
          (py_range (List.length docs)) with
  | inl e => inl e
  | inr parts => inr (py_join "" parts)
  end.

(** Lines 212-213: the f-string [f"{qdocs} Question: Please list ..."]. *)
Definition prompt_of (qdocs : string) : string :=
  qdocs ++ " Question: " ++ question.

(** Lines 80-83. *)
Definition cell_dotenv : Prog T unit :=
  path <- call 83 find_dotenv ;;
  _ <- call 83 (load_dotenv path) ;;
  Ret tt.

(** Lines 107-111; the cell's value [df.head()] is shown. *)
Definition cell_catalog : Prog T (Loader T * DataFrame T) :=
  loader <- call 108 (CSVLoader file) ;;
  df <- call 110 (read_csv file 0) ;;
  h <- call 111 (head df) ;;
  out 111 (CellValue (VDataFrame h)) ;;;
  Ret (loader, df).

(** Lines 120-127: the one-shot index and query. *)
Definition cell_index (loader : Loader T) : Prog T (Index T * string * string) :=
  creator <- call 120 (VectorstoreIndexCreator DocArrayInMemorySearch None) ;;
  index <- call 122 (from_loaders creator [loader]) ;;
  let query := question in
  response <- call 126 (index_query index query None) ;;
  call 127 (display_Markdown response) ;;;
  Ret (index, query, response).

(** Lines 143-145; the cell's value [docs[0]] is shown. *)
Definition cell_load : Prog T (Loader T * list Document) :=
  loader <- call 143 (CSVLoader file) ;;
  docs <- call 144 (load loader) ;;
  d <- lift 145 (py_getitem docs 0) ;;
  out 145 (CellValue (VDocument d)) ;;;
  Ret (loader, docs).

(** Lines 154-160. *)
Definition cell_embeddings : Prog T (Embeddings T * list (Scalar T)) :=
  embeddings <- call 155 OpenAIEmbeddings ;;
  embed <- call 158 (embed_query embeddings "Hi my name is Harrison") ;;
  out 159 (Printed (VInt (Z.of_nat (List.length embed)))) ;;;
  out 160 (Printed (VFloats (py_slice_to 5 embed))) ;;;
  Ret (embeddings, embed).

(** Lines 169-173. *)
Definition cell_db (docs : list Document) (embeddings : Embeddings T)
  : Prog T (VectorStore T) :=
  call 170 (from_documents docs embeddings).

(** Lines 182-187: [docs] is bound anew to the search result. *)
Definition cell_search (db : VectorStore T) : Prog T (string * list Document) :=
  let query := "Please suggest a shirt with sunblocking" in
  docs <- call 184 (similarity_search db query) ;;
  out 186 (Printed (VInt (Z.of_nat (List.length docs)))) ;;;
  d <- lift 187 (py_getitem docs 0) ;;
  out 187 (Printed (VDocument d)) ;;;
  Ret (query, docs).

(** Lines 196-203. *)
Definition cell_retriever (db : VectorStore T) (docs : list Document)
  : Prog T (Retriever T * LLM T * string) :=
  retriever <- call 199 (as_retriever db) ;;
  llm <- call 201 (ChatOpenAI 0%float) ;;
  qdocs <- lift 202 (qdocs_of docs) ;;
  out 203 (Printed (VStr qdocs)) ;;;
  Ret (retriever, llm, qdocs).

(** Lines 212-214. *)
Definition cell_ask (llm : LLM T) (qdocs : string) : Prog T string :=
  response <- call 212 (call_as_llm llm (prompt_of qdocs)) ;;
  call 214 (display_Markdown response) ;;;
  Ret response.

(** Lines 223-232. *)
Definition cell_chain (llm : LLM T) (retriever : Retriever T)
  : Prog T (Chain T * string * string) :=
  qa_stuff <- call 223 (from_chain_type llm "stuff" retriever true) ;;
  let query := question in
  response <- call 232 (chain_run qa_stuff query) ;;
  Ret (qa_stuff, query, response).

(** Line 241. *)
Definition cell_show (response : string) : Prog T unit :=
  call 241 (display_Markdown response).

(** Lines 257-262: [loader], [embeddings], [query] and [llm] are the
    bindings in force at that point. *)
Definition cell_index_again (loader : Loader T) (embeddings : Embeddings T)
    (query : string) (llm : LLM T) : Prog T (Index T * string) :=
  creator <- call 257
    (VectorstoreIndexCreator DocArrayInMemorySearch (Some embeddings)) ;;
  index <- call 260 (from_loaders creator [loader]) ;;
  response <- call 262 (index_query index query (Some llm)) ;;
  Ret (index, response).

(** The cells of "Understand Step-by-Step", lines 143-214. *)
Definition step_by_step
  : Prog T (Loader T * Embeddings T * Retriever T * LLM T * string) :=
  ld <- cell_load ;;
  let '(loader, docs) := ld in
  em <- cell_embeddings ;;
  let '(embeddings, embed) := em in
  db <- cell_db docs embeddings ;;
  sr <- cell_search db ;;
  let '(query, docs) := sr in
  rt <- cell_retriever db docs ;;
  let '(retriever, llm, qdocs) := rt in
  response <- cell_ask llm qdocs ;;
  Ret (loader, embeddings, retriever, llm, response).

(** The whole notebook, top to bottom. *)
Definition notebook : Prog T unit :=
  cell_dotenv ;;;
  ct <- cell_catalog ;;
  let '(loader, df) := ct in
  ix <- cell_index loader ;;
  let '(index, query, response) := ix in
  sb <- step_by_step ;;
  let '(loader, embeddings, retriever, llm, response) := sb in
  ch <- cell_chain llm retriever ;;
  let '(qa_stuff, query, response) := ch in
  cell_show response ;;;
  ia <- cell_index_again loader embeddings query llm ;;
  let '(index, response) := ia in
  Ret tt.

End Cells.

(** ** A small stand-in for the libraries

    Used to run the notebook on concrete data.  Handles are the data they
    stand for, the store keeps the documents it was given, a search
    returns the first four of them, and the chat model is the function
    [reply]. *)

Unset Implicit Arguments.

Module Toy.

Definition types : LibTypes := {|
  Loader := string;
  DataFrame := string;
  IndexCreator := unit;
  Index := list Document;
  Embeddings := unit;
  Scalar := Z;
  VectorStore := list Document;
  Retriever := list Document;
  LLM := unit;
  Chain := list Document
|}.

Definition ok {X : Type} (x : X) : (PyExn + X) * unit := (inr x, tt).

(** What [Markdown(".")] raises: the string names an existing path, so
    IPython opens it to read it. *)
Definition is_a_directory : PyExn :=
  Exn "IsADirectoryError" "[Errno 21] Is a directory: '.'".

Definition library (catalog : list Document) (reply : string -> PyExn + string)
  : Library types unit :=
  fun X c _ =>
    match c in LibCall _ X0 return (PyExn + X0) * unit with
    | find_dotenv => ok ".env"
    | load_dotenv _ => ok true
    | CSVLoader file_path => ok (file_path : Loader types)
    | read_csv f _ => ok (f : DataFrame types)
    | head df => ok df
    | VectorstoreIndexCreator _ _ => ok (tt : IndexCreator types)
    | from_loaders _ _ => ok (catalog : Index types)
    | index_query _ q _ => (reply q, tt)
    | load _ => ok catalog
    | OpenAIEmbeddings => ok (tt : Embeddings types)
    | embed_query _ text => ok ([Z.of_nat (String.length text)] : list (Scalar types))
    | from_documents docs _ => ok (docs : VectorStore types)
    | similarity_search db _ => ok (firstn 4 (db : list Document))
    | as_retriever db => ok (db : Retriever types)
    | ChatOpenAI _ => ok (tt : LLM types)
    | call_as_llm _ m => (reply m, tt)
    | from_chain_type _ _ r _ => ok (r : Chain types)
    | chain_run _ q => (reply q, tt)
    | display_Markdown data =>
        if String.eqb data "." then (inl is_a_directory, tt) else ok tt
    end.

Definition shirt : Document :=
  mkDocument "name: Sun Shield Shirt" [("source", file); ("row", "0")].
Definition hat : Document :=
  mkDocument "name: Trail Hat" [("source", file); ("row", "1")].

Definition catalog : list Document := [shirt; hat].

Definition says (text : string) : string -> PyExn + string := fun _ => inr text.

Definition rate_limit : PyExn := Exn "RateLimitError" "quota exceeded".

Definition down : string -> PyExn + string := fun _ => inl rate_limit.

(** The two-row catalog with a model that answers, with one that answers
    otherwise, and with the chat endpoint down. *)
Definition lib_a : Library types unit := library catalog (says "| shirt |").
Definition lib_b : Library types unit := library catalog (says "No shirts found.").
Definition lib_down : Library types unit := library catalog down.

(** A model that repeats what it was asked, so that the four answers of
    a run differ. *)
Definition echo : string -> PyExn + string := fun m => inr m.
Definition lib_echo : Library types unit := library catalog echo.

(** A model whose reply is a path. *)
Definition lib_dot : Library types unit := library catalog (says ".").

(** An empty catalog. *)
Definition lib_empty : Library types unit := library [] (says "| shirt |").

(** [lib] with a search that always returns [hits]. *)
Definition with_hits (hits : list Document) (lib : Library types unit)
  : Library types unit :=
  fun X c w =>
    match c in LibCall _ X0 return (PyExn + X0) * unit with
    | similarity_search _ _ => ok hits
    | c' => lib _ c' w
    end.

Definition lib_no_hits : Library types unit := with_hits [] lib_a.

End Toy.

(** ** Properties of programs and runs *)

(** A program in which no statement sits inside a [try]. *)
Inductive handler_free {T : LibTypes} : forall R : Type, Prog T R -> Prop :=
| hf_Ret (R : Type) (r : R) : handler_free R (Ret r)
| hf_Raise (R : Type) (line : nat) (e : PyExn) : handler_free R (Raise line e)
| hf_Call (R X : Type) (line : nat) (c : LibCall T X) (k : X -> Prog T R) :
    (forall x : X, handler_free R (k x)) -> handler_free R (Call line c k)
| hf_Out (R : Type) (line : nat) (o : Output T) (k : Prog T R) :
    handler_free R k -> handler_free R (Out line o k).

(** The library calls and outputs of the notebook as they are written,
    top to bottom (and left to right inside line 83). *)
Definition textual_order : list (nat * Op) :=
  [ (83, op_find_dotenv); (83, op_load_dotenv);
    (108, op_CSVLoader); (110, op_read_csv); (111, op_head);
    (111, op_cell_value);
    (120, op_VectorstoreIndexCreator); (122, op_from_loaders);
    (126, op_index_query); (127, op_display);
    (143, op_CSVLoader); (144, op_load); (145, op_cell_value);
    (155, op_OpenAIEmbeddings); (158, op_embed_query);
    (159, op_print); (160, op_print);
    (170, op_from_documents);
    (184, op_similarity_search); (186, op_print); (187, op_print);
    (199, op_as_retriever); (201, op_ChatOpenAI); (203, op_print);
    (212, op_call_as_llm); (214, op_display);
    (223, op_from_chain_type); (232, op_chain_run);
    (241, op_display);
    (257, op_VectorstoreIndexCreator); (260, op_from_loaders);
    (262, op_index_query) ].

(** [l1] is an initial part of [l2]. *)
Definition initial_part {A : Type} (l1 l2 : list A) : Prop :=
  exists rest, l2 = (l1 ++ rest)%list.

(** The lines never go back. *)
Fixpoint lines_ascend (l : list (nat * Op)) : bool :=
  match l with
  | a :: (b :: _) as rest => (fst a <=? fst b)%nat && lines_ascend rest
  | _ => true
  end.

(** The operations that make up question answering: loading documents,
    building a store or an index, retrieving, and producing an answer. *)
Definition is_stage (op : Op) : bool :=
  match op with
  | op_load | op_from_documents | op_from_loaders
  | op_similarity_search
  | op_index_query | op_call_as_llm | op_chain_run => true
  | _ => false
  end.

Definition stages {T : LibTypes} (tr : list (Event T)) : list Op :=
  filter is_stage (map snd (sites tr)).

(** One pass and no more: documents are loaded, one store is built from
    them, one search is made, and the language model is called once. *)
Definition one_pass {T : LibTypes} (tr : list (Event T)) : Prop :=
  stages tr = [op_load; op_from_documents; op_similarity_search; op_call_as_llm].

(** The four library calls of the step-by-step cells that carry the data
    from the catalog to the answer. *)
Definition is_manual_step {T : LibTypes} (ev : Event T) : bool :=
  match ev with
  | Returned _ c _ =>
      match op_of c with
      | op_load | op_from_documents | op_similarity_search | op_call_as_llm => true
      | _ => false
      end
  | _ => false
  end.

Definition manual_steps {T : LibTypes} (tr : list (Event T)) : list (Event T) :=
  filter is_manual_step tr.

(** The calls a reply comes from or goes to: the answer-producing calls
    and the display of a reply. *)
Definition handles_reply {T : LibTypes} {X : Type} (c : LibCall T X) : bool :=
  match c with
  | index_query _ _ _ | call_as_llm _ _ | chain_run _ _
  | display_Markdown _ => true
  | _ => false
  end.

(** Two libraries that behave alike except for the replies.  [R] relates
    the states of the outside world that the two runs are in.  From
    related states, a call that handles no reply gives the same result or
    raises the same exception in both; any call leaves related states
    behind, whatever it returned; and so does displaying a reply, whatever
    the two replies were. *)
Definition differ_only_in_replies {T : LibTypes} {W : Type}
    (R : W -> W -> Prop) (lib1 lib2 : Library T W) : Prop :=
  (forall (X : Type) (c : LibCall T X) (w1 w2 : W),
     R w1 w2 -> handles_reply c = false ->
     fst (lib1 X c w1) = fst (lib2 X c w2)) /\
  (forall (X : Type) (c : LibCall T X) (w1 w2 : W),
     R w1 w2 -> R (snd (lib1 X c w1)) (snd (lib2 X c w2))) /\
  (forall (d1 d2 : string) (w1 w2 : W),
     R w1 w2 ->
     R (snd (lib1 _ (display_Markdown d1) w1))
       (snd (lib2 _ (display_Markdown d2) w2))).

(** One list is an initial part of the other. *)
Definition one_extends_the_other {A : Type} (l1 l2 : list A) : Prop :=
  initial_part l1 l2 \/ initial_part l2 l1.

(** What line [line] shows is the same in any two runs that differ only
    in the replies. *)
Definition llm_independent (T : LibTypes) (W : Type) (line : nat) : Prop :=
  forall (R : W -> W -> Prop) (lib1 lib2 : Library T W) (w1 w2 : W),
    differ_only_in_replies R lib1 lib2 -> R w1 w2 ->
    shown_at line (trace (run lib1 (notebook T) w1))
    = shown_at line (trace (run lib2 (notebook T) w2)).

(** Line [line] shows something in some run. *)
Definition shows_something (T : LibTypes) (W : Type) (line : nat) : Prop :=
  exists (lib : Library T W) (w : W),
    shown_at line (trace (run lib (notebook T) w)) <> [].

(** No output is fixed independently of the language model's replies. *)
Definition every_output_depends_on_llm (T : LibTypes) (W : Type) : Prop :=
  forall line : nat, shows_something T W line -> ~ llm_independent T W line.

(** ** More ways to read a run *)

(** The exceptions the notebook's own code raised, with their lines. *)
Definition thrown {T : LibTypes} (tr : list (Event T)) : list (nat * PyExn) :=
  flat_map (fun ev => match ev with Threw line e => [(line, e)] | _ => [] end) tr.

(** The document lists [loader.load()] returned. *)
Definition loaded_of {T : LibTypes} {X : Type} (c : LibCall T X)
  : X -> list (list Document) :=
  match c in LibCall _ X0 return X0 -> list (list Document) with
  | load _ => fun ds => [ds]
  | _ => fun _ => []
  end.

Definition loaded {T : LibTypes} (tr : list (Event T)) : list (list Document) :=
  flat_map (fun ev => match ev with Returned _ c x => loaded_of c x | _ => [] end) tr.

(** The library calls that returned on one of the given lines. *)
Definition returned_at {T : LibTypes} (lines : list nat) (tr : list (Event T))
  : list (Event T) :=
  filter (fun ev => match ev with
                    | Returned line _ _ => existsb (Nat.eqb line) lines
                    | _ => false
                    end) tr.

(** The library calls a run made other than [display(Markdown(...))],
    with their arguments and without their results. *)
Definition plain_request {T : LibTypes} {X : Type} (c : LibCall T X)
  : list {X : Type & LibCall T X} :=
  match c with
  | display_Markdown _ => []
  | c' => [existT _ _ c']
  end.

Definition plain_requests {T : LibTypes} (tr : list (Event T))
  : list {X : Type & LibCall T X} :=
  flat_map (fun ev => match ev with
                      | Returned _ c _ => plain_request c
                      | Failed _ c _ => plain_request c
                      | _ => []
                      end) tr.

(** A run ends in one of three ways. *)
Definition ends_well {T : LibTypes} {W : Type} (r : Run T W unit) : Prop :=
  outcome r = inr tt /\ failures (trace r) = [] /\ thrown (trace r) = [].

Definition ends_in_library {T : LibTypes} {W : Type} (r : Run T W unit) : Prop :=
  exists e : PyExn,
    outcome r = inl e /\ failures (trace r) = [e] /\ thrown (trace r) = [].

Definition ends_on_empty_list {T : LibTypes} {W : Type} (r : Run T W unit) : Prop :=
  outcome r = inl IndexError /\ failures (trace r) = [] /\
  ((thrown (trace r) = [(145, IndexError)] /\
    loaded (trace r) = [[]] /\ retrieved (trace r) = []) \/
   (thrown (trace r) = [(187, IndexError)] /\ retrieved (trace r) = [[]])).

(** ** The notebook's own expressions *)

Lemma py_getitem_nth {A : Type} (l : list A) (i : nat) (x : A) :
  nth_error l i = Some x -> py_getitem l (Z.of_nat i) = inr x.
Proof.
  intros H. unfold py_getitem.
  assert (Hlt : (i < List.length l)%nat)
    by (apply nth_error_Some; rewrite H; discriminate).
  assert (E1 : (Z.of_nat i <? 0)%Z = false) by (apply Z.ltb_ge; lia).
  assert (E2 : (Z.of_nat (List.length l) <=? Z.of_nat i)%Z = false)
    by (apply Z.leb_gt; lia).
  cbv zeta. rewrite E1. cbv iota. rewrite E1, E2. cbn [orb].
  rewrite Nat2Z.id, H. reflexivity.
Qed.

Lemma py_getitem_head {A : Type} (x : A) (l : list A) :
  py_getitem (x :: l) 0 = inr x.
Proof. apply (py_getitem_nth (x :: l) 0). reflexivity. Qed.

Lemma py_getitem_empty {A : Type} (i : Z) :
  py_getitem (@nil A) i = inl IndexError.
Proof.
  unfold py_getitem. simpl.
  destruct (i <? 0)%Z eqn:E.
  - rewrite Z.add_0_r, E. reflexivity.
  - replace (0 <=? i)%Z with true
      by (symmetry; apply Z.leb_le; apply Z.ltb_ge in E; lia).
    rewrite orb_true_r. reflexivity.
Qed.

(** The comprehension of line 202 walks the indices of [docs] itself, so
    no index is out of range: it is [map page_content]. *)
Lemma comprehension_indices (pre suf : list Document) :
  comprehension
    (fun i => match py_getitem (pre ++ suf) i with
              | inl e => inl e
              | inr d => inr (page_content d)
              end)
    (map Z.of_nat (seq (List.length pre) (List.length suf)))
  = inr (map page_content suf).
Proof.
  revert pre. induction suf as [|d suf IH]; intros pre; [reflexivity|].
  cbn [List.length seq map comprehension].
  rewrite (py_getitem_nth (pre ++ d :: suf) (List.length pre) d).
  - specialize (IH (pre ++ [d])%list).
    rewrite <- app_assoc in IH. cbn [app] in IH.
    rewrite length_app in IH. cbn [List.length] in IH.
    rewrite Nat.add_1_r in IH. rewrite IH. reflexivity.
  - rewrite nth_error_app2 by lia. rewrite Nat.sub_diag. reflexivity.
Qed.

Lemma qdocs_of_join (docs : list Document) :
  qdocs_of docs = inr (String.concat "" (map page_content docs)).
Proof.
  unfold qdocs_of, py_range.
  pose proof (comprehension_indices [] docs) as H.
  cbn [app List.length] in H. rewrite H. reflexivity.
Qed.

(** ** Programs without handlers *)

Lemma handler_free_failure {T : LibTypes} {W : Type} (lib : Library T W)
    (R : Type) (p : Prog T R) :
  handler_free R p ->
  forall (w : W) (e : PyExn),
    In e (failures (trace (run lib p w))) ->
    outcome (run lib p w) = inl e /\
    exists (line : nat) (X : Type) (c : LibCall T X) (pre : list (Event T)),
      trace (run lib p w) = (pre ++ [Failed line c e])%list /\ failures pre = [].
Proof.
  induction 1 as [R r|R line e|R X line c k Hk IH|R line o k Hk IH];
    intros w e0 Hin; cbn in *.
  - contradiction.
  - contradiction.
  - destruct (lib X c w) as [[e|x] w']; cbn in *.
    + destruct Hin as [->|[]]. split; [reflexivity|].
      exists line, X, c, []. split; reflexivity.
    + destruct (IH x w' e0 Hin) as [Ho (l & X' & c' & pre & Ht & Hp)].
      split; [exact Ho|].
      exists l, X', c', (Returned line c x :: pre). rewrite Ht.
      split; [reflexivity|exact Hp].
  - destruct (IH w e0 Hin) as [Ho (l & X' & c' & pre & Ht & Hp)].
    split; [exact Ho|].
    exists l, X', c', (Shown line o :: pre). rewrite Ht.
    split; [reflexivity|exact Hp].
Qed.

(** Unfolding the cells, and walking through the notebook's own
    expressions. *)
Ltac open_notebook :=
  unfold notebook, step_by_step, cell_dotenv, cell_catalog, cell_index,
    cell_load, cell_embeddings, cell_db, cell_search, cell_retriever,
    cell_ask, cell_chain, cell_show, cell_index_again, call, out;
  cbn [bind].

Ltac own_step :=
  match goal with
  | |- context [py_getitem ?l 0%Z] =>
      is_var l; destruct l;
      [rewrite py_getitem_empty | rewrite py_getitem_head]
  | |- context [qdocs_of ?l] => rewrite (qdocs_of_join l)
  end; cbn [bind lift].

Lemma notebook_handler_free (T : LibTypes) : handler_free unit (notebook T).
Proof.
  open_notebook.
  repeat first [ own_step | constructor; intros ].
Qed.

(** A program has no state of its own: the outside world changes only
    where a library call changes it. *)
Lemma world_changes_only_in_calls {T : LibTypes} {W : Type} (lib : Library T W)
    (R : Type) (p : Prog T R) :
  (forall (X : Type) (c : LibCall T X) (w : W), snd (lib X c w) = w) ->
  forall w : W, world (run lib p w) = w.
Proof.
  intros Hlib.
  induction p as [R r|R line e|R X line c k IH|R line o k IH
                 |R A body IHb handler IHh k IHk]; intros w; cbn.
  - reflexivity.
  - reflexivity.
  - specialize (Hlib X c w).
    destruct (lib X c w) as [[e|x] w']; cbn in *; subst w'.
    + reflexivity.
    + apply IH.
  - apply IH.
  - destruct (outcome (run lib body w)) as [e|a]; cbn.
    + destruct (outcome (run lib (handler e) (world (run lib body w))))
        as [e'|a]; cbn.
      * rewrite IHh. apply IHb.
      * rewrite IHk, IHh. apply IHb.
    + rewrite IHk. apply IHb.
Qed.

(** One step of a run: the next library call returns or raises. *)
Ltac lib_step lib :=
  match goal with
  | |- context [lib ?X ?c ?w] => destruct (lib X c w) as [[?e|?x] ?w]
  end;
  cbn [run after trace outcome world bind lift app].

Ltac walk lib :=
  open_notebook; cbn [run after trace outcome world bind lift app];
  repeat first [ own_step; cbn [run after trace outcome world bind lift app]
               | lib_step lib ].

(** C9. Execution is one straight line: in every run, against any
    behaviour of the libraries, the library calls and outputs that happen
    are an initial part of the notebook's calls and outputs in textual
    order (no branch, no retry, nothing out of order); a run that
    completes performs every one of them; the textual order lists each
    call site once, with lines that never go back; and the notebook keeps
    no state of its own: where no library call changes the outside world,
    the run leaves it as it was. *)
Theorem one_straight_line (T : LibTypes) (W : Type) (lib : Library T W) (w : W) :
  initial_part (sites (trace (run lib (notebook T) w))) textual_order /\
  (outcome (run lib (notebook T) w) = inr tt ->
   sites (trace (run lib (notebook T) w)) = textual_order) /\
  NoDup textual_order /\
  lines_ascend textual_order = true /\
  ((forall (X : Type) (c : LibCall T X) (w' : W), snd (lib X c w') = w') ->
   world (run lib (notebook T) w) = w).
Proof.
  assert (Hrun :
    initial_part (sites (trace (run lib (notebook T) w))) textual_order /\
    (outcome (run lib (notebook T) w) = inr tt ->
     sites (trace (run lib (notebook T) w)) = textual_order)).
  { walk lib;
      (split;
       [ eexists; reflexivity
       | intros Hdone; first [discriminate Hdone | reflexivity] ]). }
  destruct Hrun as [Hpre Hall].
  split; [exact Hpre|]. split; [exact Hall|]. split; [|split].
  - unfold textual_order.
    repeat (constructor; [simpl; intuition discriminate|]).
    constructor.
  - reflexivity.
  - intros Hlib. apply world_changes_only_in_calls. exact Hlib.
Qed.

(** A complete run on the two-row catalog. *)
Lemma one_straight_line_witness :
  outcome (run Toy.lib_a (notebook Toy.types) tt) = inr tt /\
  (forall (X : Type) (c : LibCall Toy.types X) (w' : unit),
     snd (Toy.lib_a X c w') = w') /\
  sites (trace (run Toy.lib_a (notebook Toy.types) tt)) = textual_order /\
  world (run Toy.lib_a (notebook Toy.types) tt) = tt.
Proof.
  assert (Hlib : forall (X : Type) (c : LibCall Toy.types X) (w' : unit),
             snd (Toy.lib_a X c w') = w')
    by (intros X c []; destruct (snd (Toy.lib_a X c tt)); reflexivity).
  split; [reflexivity|]. split; [exact Hlib|].
  pose proof (one_straight_line Toy.types unit Toy.lib_a tt) as H.
  split.
  - exact (proj1 (proj2 H) eq_refl).
  - exact (proj2 (proj2 (proj2 (proj2 H))) Hlib).
Defined.

(** C7. No library call is inside a handler, and an exception raised by
    a library call is the outcome of the run, unchanged: the failing call
    is the last thing that happens and no call failed before it. *)
Theorem library_failure_propagates (T : LibTypes) :
  handler_free unit (notebook T) /\
  forall (W : Type) (lib : Library T W) (w : W) (e : PyExn),
    In e (failures (trace (run lib (notebook T) w))) ->
    outcome (run lib (notebook T) w) = inl e /\
    exists (line : nat) (X : Type) (c : LibCall T X) (pre : list (Event T)),
      trace (run lib (notebook T) w) = (pre ++ [Failed line c e])%list /\
      failures pre = [].
Proof.
  split.
  - apply notebook_handler_free.
  - intros W lib w e Hin.
    apply handler_free_failure; [apply notebook_handler_free | exact Hin].
Qed.

(** The chat endpoint is down: the first query raises, and that exception
    ends the notebook. *)
Lemma library_failure_propagates_witness :
  In Toy.rate_limit
     (failures (trace (run Toy.lib_down (notebook Toy.types) tt))) /\
  outcome (run Toy.lib_down (notebook Toy.types) tt) = inl Toy.rate_limit.
Proof.
  assert (Hin : In Toy.rate_limit
     (failures (trace (run Toy.lib_down (notebook Toy.types) tt))))
    by (vm_compute; left; reflexivity).
  split; [exact Hin|].
  exact (proj1 (proj2 (library_failure_propagates Toy.types) unit
                  Toy.lib_down tt Toy.rate_limit Hin)).
Defined.

(** C5. Whenever [llm.call_as_llm] is reached, its message is the
    [page_content] of the documents [db.similarity_search] returned
    earlier in the run, in that order and joined with the empty string,
    followed by the question (the f-string's [" Question: "] and the
    question text).  There is one search and one such message. *)
Theorem prompt_is_documents_then_question
    (T : LibTypes) (W : Type) (lib : Library T W) (w : W) (p : string) :
  In p (prompts (trace (run lib (notebook T) w))) ->
  exists (docs : list Document) (before since : list (Event T)),
    trace (run lib (notebook T) w) = (before ++ since)%list /\
    retrieved before = [docs] /\
    prompts before = [] /\
    prompts since = [p] /\
    retrieved (trace (run lib (notebook T) w)) = [docs] /\
    p = String.concat "" (map page_content docs) ++ " Question: " ++ question.
Proof.
  walk lib;
    cbn [prompts flat_map message_of app In];
    intros Hin; try contradiction;
    destruct Hin as [<-|[]];
    match goal with
    | |- exists _ _ _, ?tr = _ /\ _ =>
        eexists; exists (firstn 24 tr), (skipn 24 tr)
    end;
    repeat split; reflexivity.
Qed.

Lemma prompt_is_documents_then_question_witness :
  In ("name: Sun Shield Shirtname: Trail Hat Question: " ++ question)
     (prompts (trace (run Toy.lib_a (notebook Toy.types) tt))) /\
  exists (docs : list Document) (before since : list (Event Toy.types)),
    trace (run Toy.lib_a (notebook Toy.types) tt) = (before ++ since)%list /\
    retrieved before = [docs] /\
    prompts before = [] /\
    prompts since = ["name: Sun Shield Shirtname: Trail Hat Question: " ++ question] /\
    retrieved (trace (run Toy.lib_a (notebook Toy.types) tt)) = [docs] /\
    "name: Sun Shield Shirtname: Trail Hat Question: " ++ question
    = String.concat "" (map page_content docs) ++ " Question: " ++ question.
Proof.
  assert (Hin : In ("name: Sun Shield Shirtname: Trail Hat Question: " ++ question)
     (prompts (trace (run Toy.lib_a (notebook Toy.types) tt))))
    by (vm_compute; left; reflexivity).
  split; [exact Hin|].
  exact (prompt_is_documents_then_question Toy.types unit Toy.lib_a tt _ Hin).
Defined.

(** C1, as stated, fails: the notebook does not make one pass.  On a
    two-row catalog the run completes, four answers are produced (lines
    126, 212, 232 and 262) and an index is built three times (lines 122,
    170 and 260). *)
Lemma notebook_is_not_one_pass :
  outcome (run Toy.lib_a (notebook Toy.types) tt) = inr tt /\
  List.length (answers (trace (run Toy.lib_a (notebook Toy.types) tt))) = 4 /\
  ~ one_pass (trace (run Toy.lib_a (notebook Toy.types) tt)).
Proof.
  split; [reflexivity|]. split; [reflexivity|].
  unfold one_pass. vm_compute. discriminate.
Qed.

(** C1, amended. In every run that completes, the notebook answers the
    question four times over (one-shot index and query, the step-by-step
    cells, the RetrievalQA chain, one-shot again), and the step-by-step
    cells are one sequential composition, each call made once and in this
    order: [loader.load()]; [from_documents] on exactly the loaded
    documents (embedding and index building happen inside that call);
    [similarity_search] on that store; and one [call_as_llm] on the
    concatenation of the retrieved documents followed by the question. *)
Theorem step_by_step_is_the_pipeline
    (T : LibTypes) (W : Type) (lib : Library T W) (w : W) :
  outcome (run lib (notebook T) w) = inr tt ->
  stages (trace (run lib (notebook T) w))
  = [ op_from_loaders; op_index_query;
      op_load; op_from_documents; op_similarity_search; op_call_as_llm;
      op_chain_run;
      op_from_loaders; op_index_query ] /\
  exists (loader : Loader T) (loaded : list Document)
         (embeddings : Embeddings T) (db : VectorStore T)
         (docs : list Document) (llm : LLM T) (answer : string),
    manual_steps (trace (run lib (notebook T) w))
    = [ Returned 144 (load loader) loaded;
        Returned 170 (from_documents loaded embeddings) db;
        Returned 184 (similarity_search db "Please suggest a shirt with sunblocking") docs;
        Returned 212
          (call_as_llm llm
             (String.concat "" (map page_content docs) ++ " Question: " ++ question))
          answer ].
Proof.
  walk lib; intros Hdone; try discriminate Hdone.
  split; [reflexivity|].
  do 7 eexists. reflexivity.
Qed.

Lemma step_by_step_is_the_pipeline_witness :
  outcome (run Toy.lib_a (notebook Toy.types) tt) = inr tt /\
  stages (trace (run Toy.lib_a (notebook Toy.types) tt))
  = [ op_from_loaders; op_index_query;
      op_load; op_from_documents; op_similarity_search; op_call_as_llm;
      op_chain_run;
      op_from_loaders; op_index_query ].
Proof.
  split; [reflexivity|].
  exact (proj1 (step_by_step_is_the_pipeline Toy.types unit Toy.lib_a tt
                  eq_refl)).
Defined.

(** Walking through one run with the statement about it set aside. *)
Ltac walk_run lib :=
  let Q := fresh "Q" in
  match goal with
  | |- context [run lib (notebook ?T) ?w] => pattern (run lib (notebook T) w)
  end;
  match goal with |- ?P _ => set (Q := P) end;
  walk lib; subst Q; cbv beta; cbn [after trace outcome world app].

(** ** How a run can end *)

Lemma run_endings (T : LibTypes) (W : Type) (lib : Library T W) (w : W) :
  (ends_well (run lib (notebook T) w) \/
   ends_in_library (run lib (notebook T) w) \/
   ends_on_empty_list (run lib (notebook T) w)) /\
  (In [] (loaded (trace (run lib (notebook T) w))) ->
   outcome (run lib (notebook T) w) = inl IndexError /\
   thrown (trace (run lib (notebook T) w)) = [(145, IndexError)] /\
   sites (trace (run lib (notebook T) w)) = firstn 12 textual_order) /\
  (In [] (retrieved (trace (run lib (notebook T) w))) ->
   outcome (run lib (notebook T) w) = inl IndexError /\
   thrown (trace (run lib (notebook T) w)) = [(187, IndexError)] /\
   sites (trace (run lib (notebook T) w)) = firstn 20 textual_order /\
   shown_at 186 (trace (run lib (notebook T) w)) = [Printed (VInt 0)] /\
   prompts (trace (run lib (notebook T) w)) = []).
Proof.
  unfold ends_well, ends_in_library, ends_on_empty_list.
  walk_run lib;
  (split;
    [ first [ left; repeat split; reflexivity
            | right; left; eexists; repeat split; reflexivity
            | right; right; split; [reflexivity|]; split; [reflexivity|];
              first [ left; repeat split; reflexivity
                    | right; repeat split; reflexivity ] ]
    | split;
      [ cbn [loaded flat_map loaded_of app In]; intros Hin;
        first [ exfalso; intuition discriminate
              | repeat split; reflexivity ]
      | cbn [retrieved flat_map retrieved_of app In]; intros Hin;
        first [ exfalso; intuition discriminate
              | repeat split; reflexivity ] ] ]).
Qed.

(** X1. Every run of the notebook ends in one of three ways: it
    completes, with no exception anywhere; or one library call raised and
    its exception is the outcome; or the notebook's own indexing raised
    [IndexError], which happens only at line 145, when [loader.load()]
    returned no document, or at line 187, when [db.similarity_search]
    returned none.  Nothing else in the notebook raises: the indexing
    inside the comprehension of line 202 never does. *)
Theorem run_ends_in_one_of_three_ways
    (T : LibTypes) (W : Type) (lib : Library T W) (w : W) :
  ends_well (run lib (notebook T) w) \/
  ends_in_library (run lib (notebook T) w) \/
  ends_on_empty_list (run lib (notebook T) w).
Proof. exact (proj1 (run_endings T W lib w)). Qed.

(** X2. An empty catalog: when [loader.load()] (line 144) returns no
    document, [docs[0]] on line 145 raises [IndexError] and the run ends
    there.  The first twelve operations have run (through the one-shot
    query and the loading); no embedding is requested, no store is built
    and nothing is retrieved. *)
Theorem empty_catalog_stops_at_line_145
    (T : LibTypes) (W : Type) (lib : Library T W) (w : W) :
  In [] (loaded (trace (run lib (notebook T) w))) ->
  outcome (run lib (notebook T) w) = inl IndexError /\
  thrown (trace (run lib (notebook T) w)) = [(145, IndexError)] /\
  sites (trace (run lib (notebook T) w)) = firstn 12 textual_order.
Proof. exact (proj1 (proj2 (run_endings T W lib w))). Qed.

Lemma empty_catalog_stops_at_line_145_witness :
  In [] (loaded (trace (run Toy.lib_empty (notebook Toy.types) tt))) /\
  outcome (run Toy.lib_empty (notebook Toy.types) tt) = inl IndexError /\
  thrown (trace (run Toy.lib_empty (notebook Toy.types) tt))
  = [(145, IndexError)] /\
  sites (trace (run Toy.lib_empty (notebook Toy.types) tt))
  = firstn 12 textual_order.
Proof.
  assert (Hin : In [] (loaded (trace (run Toy.lib_empty (notebook Toy.types) tt))))
    by (vm_compute; left; reflexivity).
  split; [exact Hin|].
  exact (empty_catalog_stops_at_line_145 Toy.types unit Toy.lib_empty tt Hin).
Defined.

(** X3. A search without hits: when [db.similarity_search] (line 184)
    returns no document, line 186 prints 0, [docs[0]] on line 187 raises
    [IndexError] and the run ends there: the first twenty operations have
    run, and [llm.call_as_llm] is never reached. *)
Theorem empty_search_stops_at_line_187
    (T : LibTypes) (W : Type) (lib : Library T W) (w : W) :
  In [] (retrieved (trace (run lib (notebook T) w))) ->
  outcome (run lib (notebook T) w) = inl IndexError /\
  thrown (trace (run lib (notebook T) w)) = [(187, IndexError)] /\
  sites (trace (run lib (notebook T) w)) = firstn 20 textual_order /\
  shown_at 186 (trace (run lib (notebook T) w)) = [Printed (VInt 0)] /\
  prompts (trace (run lib (notebook T) w)) = [].
Proof. exact (proj2 (proj2 (run_endings T W lib w))). Qed.

Lemma empty_search_stops_at_line_187_witness :
  In [] (retrieved (trace (run Toy.lib_no_hits (notebook Toy.types) tt))) /\
  outcome (run Toy.lib_no_hits (notebook Toy.types) tt) = inl IndexError /\
  thrown (trace (run Toy.lib_no_hits (notebook Toy.types) tt))
  = [(187, IndexError)] /\
  sites (trace (run Toy.lib_no_hits (notebook Toy.types) tt))
  = firstn 20 textual_order /\
  shown_at 186 (trace (run Toy.lib_no_hits (notebook Toy.types) tt))
  = [Printed (VInt 0)] /\
  prompts (trace (run Toy.lib_no_hits (notebook Toy.types) tt)) = [].
Proof.
  assert (Hin : In [] (retrieved (trace (run Toy.lib_no_hits (notebook Toy.types) tt))))
    by (vm_compute; left; reflexivity).
  split; [exact Hin|].
  exact (empty_search_stops_at_line_187 Toy.types unit Toy.lib_no_hits tt Hin).
Defined.

(** ** When a run completes *)

(** X4. A run completes exactly when none of the library calls it makes
    raises and neither [loader.load()] nor [db.similarity_search] returns
    an empty list in it. *)
Theorem run_completes_iff
    (T : LibTypes) (W : Type) (lib : Library T W) (w : W) :
  outcome (run lib (notebook T) w) = inr tt <->
  failures (trace (run lib (notebook T) w)) = [] /\
  ~ In [] (loaded (trace (run lib (notebook T) w))) /\
  ~ In [] (retrieved (trace (run lib (notebook T) w))).
Proof.
  destruct (run_endings T W lib w) as (Hends & Hload & Hsearch).
  split.
  - intros Hdone. split; [|split].
    + destruct Hends as [(_ & Hf & _)|[(e & Ho & _)|(Ho & _)]];
        [exact Hf | rewrite Ho in Hdone; discriminate Hdone
                  | rewrite Ho in Hdone; discriminate Hdone].
    + intros Hin. destruct (Hload Hin) as (Ho & _).
      rewrite Ho in Hdone. discriminate Hdone.
    + intros Hin. destruct (Hsearch Hin) as (Ho & _).
      rewrite Ho in Hdone. discriminate Hdone.
  - intros (Hf & Hl & Hr).
    destruct Hends as [(Ho & _)|[(e & _ & Hf' & _)|(_ & _ & Hempty)]].
    + exact Ho.
    + rewrite Hf' in Hf. discriminate Hf.
    + exfalso. destruct Hempty as [(_ & Hl' & _)|(_ & Hr')].
      * apply Hl. rewrite Hl'. left. reflexivity.
      * apply Hr. rewrite Hr'. left. reflexivity.
Qed.

(** The two-row catalog with a model that answers: no call raises, both
    lists have two documents, and the run completes. *)
Lemma run_completes_iff_witness :
  failures (trace (run Toy.lib_a (notebook Toy.types) tt)) = [] /\
  ~ In [] (loaded (trace (run Toy.lib_a (notebook Toy.types) tt))) /\
  ~ In [] (retrieved (trace (run Toy.lib_a (notebook Toy.types) tt))) /\
  outcome (run Toy.lib_a (notebook Toy.types) tt) = inr tt.
Proof.
  assert (Hf : failures (trace (run Toy.lib_a (notebook Toy.types) tt)) = [])
    by reflexivity.
  assert (Hl : ~ In [] (loaded (trace (run Toy.lib_a (notebook Toy.types) tt))))
    by (vm_compute; intuition discriminate).
  assert (Hr : ~ In [] (retrieved (trace (run Toy.lib_a (notebook Toy.types) tt))))
    by (vm_compute; intuition discriminate).
  split; [exact Hf|]. split; [exact Hl|]. split; [exact Hr|].
  exact (proj2 (run_completes_iff Toy.types unit Toy.lib_a tt)
           (conj Hf (conj Hl Hr))).
Defined.

(** ** What is shown, and where the handles go *)

Lemma append_empty_r (s : string) : s ++ "" = s.
Proof. induction s as [|a s IH]; [reflexivity|]. cbn. rewrite IH. reflexivity. Qed.

Lemma join_cons (x : string) (xs : list string) :
  String.concat "" (x :: xs) = x ++ String.concat "" xs.
Proof.
  destruct xs as [|y ys]; cbn.
  - symmetry. apply append_empty_r.
  - reflexivity.
Qed.

Lemma shown_facts (T : LibTypes) (W : Type) (lib : Library T W) (w : W) :
  initial_part (handed_to_display (trace (run lib (notebook T) w)))
               (answers (trace (run lib (notebook T) w))) /\
  (outcome (run lib (notebook T) w) = inr tt ->
   exists a1 a2 a3 a4 : string,
     answers (trace (run lib (notebook T) w)) = [a1; a2; a3; a4] /\
     handed_to_display (trace (run lib (notebook T) w)) = [a1; a2; a3]) /\
  (forall s : string,
     In (Printed (VStr s)) (shown_at 203 (trace (run lib (notebook T) w))) ->
     exists (d : Document) (rest : list Document),
       retrieved (trace (run lib (notebook T) w)) = [d :: rest] /\
       shown_at 187 (trace (run lib (notebook T) w)) = [Printed (VDocument d)] /\
       shown_at 186 (trace (run lib (notebook T) w))
       = [Printed (VInt (Z.of_nat (List.length (d :: rest))))] /\
       s = page_content d ++ String.concat "" (map page_content rest)).
Proof.
  walk_run lib;
  (split;
    [ eexists; reflexivity
    | split;
      [ intros Hdone; first [discriminate Hdone | do 4 eexists; repeat split; reflexivity]
      | intros s Hin;
        cbn [shown_at outputs flat_map filter map fst snd Nat.eqb app In] in Hin;
        first
          [ contradiction
          | destruct Hin as [Heq|[]]; injection Heq as <-;
            do 2 eexists;
            repeat (split; [reflexivity|]);
            apply join_cons ] ] ]).
Qed.

(** The first output of any run is that of line 111, and line 111 shows
    nothing else. *)
Lemma first_output_is_line_111
    (T : LibTypes) (W : Type) (lib : Library T W) (w : W) :
  shown_at 111 (trace (run lib (notebook T) w))
  = match hd_error (outputs (trace (run lib (notebook T) w))) with
    | Some lo => [snd lo]
    | None => []
    end.
Proof. walk_run lib; reflexivity. Qed.

(** X5. What is handed to [display(Markdown(...))] is always an initial
    part of the answers the run obtained, in the same order.  A run that
    completes obtains four answers and hands the first three to the
    display (lines 127, 214 and 241): the response of the last cell (line
    262) is computed and never handed to the display. *)
Theorem last_answer_is_not_displayed
    (T : LibTypes) (W : Type) (lib : Library T W) (w : W) :
  initial_part (handed_to_display (trace (run lib (notebook T) w)))
               (answers (trace (run lib (notebook T) w))) /\
  (outcome (run lib (notebook T) w) = inr tt ->
   exists a1 a2 a3 a4 : string,
     answers (trace (run lib (notebook T) w)) = [a1; a2; a3; a4] /\
     handed_to_display (trace (run lib (notebook T) w)) = [a1; a2; a3]).
Proof.
  split.
  - exact (proj1 (shown_facts T W lib w)).
  - exact (proj1 (proj2 (shown_facts T W lib w))).
Qed.

Lemma last_answer_is_not_displayed_witness :
  outcome (run Toy.lib_echo (notebook Toy.types) tt) = inr tt /\
  exists a1 a2 a3 a4 : string,
    answers (trace (run Toy.lib_echo (notebook Toy.types) tt)) = [a1; a2; a3; a4] /\
    handed_to_display (trace (run Toy.lib_echo (notebook Toy.types) tt))
    = [a1; a2; a3].
Proof.
  split; [reflexivity|].
  exact (proj2 (last_answer_is_not_displayed Toy.types unit Toy.lib_echo tt)
           eq_refl).
Defined.

(** X6. Whenever line 203 prints [qdocs], the search returned at least
    one document: line 186 printed their number, line 187 printed the
    first of them, and [qdocs] is that document's [page_content] followed
    by the joined [page_content] of the others.  [qdocs] is never built
    from an empty list. *)
Theorem qdocs_starts_with_the_first_hit
    (T : LibTypes) (W : Type) (lib : Library T W) (w : W) (s : string) :
  In (Printed (VStr s)) (shown_at 203 (trace (run lib (notebook T) w))) ->
  exists (d : Document) (rest : list Document),
    retrieved (trace (run lib (notebook T) w)) = [d :: rest] /\
    shown_at 187 (trace (run lib (notebook T) w)) = [Printed (VDocument d)] /\
    shown_at 186 (trace (run lib (notebook T) w))
    = [Printed (VInt (Z.of_nat (List.length (d :: rest))))] /\
    s = page_content d ++ String.concat "" (map page_content rest).
Proof. exact (proj2 (proj2 (shown_facts T W lib w)) s). Qed.

Lemma qdocs_starts_with_the_first_hit_witness :
  In (Printed (VStr "name: Sun Shield Shirtname: Trail Hat"))
     (shown_at 203 (trace (run Toy.lib_a (notebook Toy.types) tt))) /\
  exists (d : Document) (rest : list Document),
    retrieved (trace (run Toy.lib_a (notebook Toy.types) tt)) = [d :: rest] /\
    shown_at 187 (trace (run Toy.lib_a (notebook Toy.types) tt))
    = [Printed (VDocument d)] /\
    shown_at 186 (trace (run Toy.lib_a (notebook Toy.types) tt))
    = [Printed (VInt (Z.of_nat (List.length (d :: rest))))] /\
    "name: Sun Shield Shirtname: Trail Hat"
    = page_content d ++ String.concat "" (map page_content rest).
Proof.
  assert (Hin : In (Printed (VStr "name: Sun Shield Shirtname: Trail Hat"))
     (shown_at 203 (trace (run Toy.lib_a (notebook Toy.types) tt))))
    by (vm_compute; left; reflexivity).
  split; [exact Hin|].
  exact (qdocs_starts_with_the_first_hit Toy.types unit Toy.lib_a tt _ Hin).
Defined.

(** X7. Where the handles go, in a run that completes.  The first
    one-shot index is made with the library's default embedding from the
    loader of line 108.  The RetrievalQA chain of line 223 gets the chat
    model of line 201 and the retriever of the very store built on line
    170, and is run on the question.  The last cell uses the bindings in
    force at that point: the embeddings of line 155, the loader of line
    143 (not that of line 108), the chat model of line 201, and the
    question bound on line 230 (not the search query of line 183). *)
Theorem handles_flow_to_the_later_cells
    (T : LibTypes) (W : Type) (lib : Library T W) (w : W) :
  outcome (run lib (notebook T) w) = inr tt ->
  exists (loader1 : Loader T) (creator1 : IndexCreator T) (index1 : Index T)
         (loader2 : Loader T) (embeddings : Embeddings T)
         (docs : list Document) (db : VectorStore T)
         (retriever : Retriever T) (llm : LLM T) (qa_stuff : Chain T)
         (answer3 : string)
         (creator2 : IndexCreator T) (index2 : Index T) (answer4 : string),
    returned_at [108; 120; 122; 143; 155; 170; 199; 201; 223; 232; 257; 260; 262]
                (trace (run lib (notebook T) w))
    = [ Returned 108 (CSVLoader file) loader1;
        Returned 120 (VectorstoreIndexCreator DocArrayInMemorySearch None) creator1;
        Returned 122 (from_loaders creator1 [loader1]) index1;
        Returned 143 (CSVLoader file) loader2;
        Returned 155 OpenAIEmbeddings embeddings;
        Returned 170 (from_documents docs embeddings) db;
        Returned 199 (as_retriever db) retriever;
        Returned 201 (ChatOpenAI 0%float) llm;
        Returned 223 (from_chain_type llm "stuff" retriever true) qa_stuff;
        Returned 232 (chain_run qa_stuff question) answer3;
        Returned 257
          (VectorstoreIndexCreator DocArrayInMemorySearch (Some embeddings))
          creator2;
        Returned 260 (from_loaders creator2 [loader2]) index2;
        Returned 262 (index_query index2 question (Some llm)) answer4 ].
Proof.
  walk_run lib; intros Hdone; try discriminate Hdone.
  do 14 eexists. reflexivity.
Qed.

Lemma handles_flow_to_the_later_cells_witness :
  outcome (run Toy.lib_a (notebook Toy.types) tt) = inr tt /\
  List.length
    (returned_at [108; 120; 122; 143; 155; 170; 199; 201; 223; 232; 257; 260; 262]
                 (trace (run Toy.lib_a (notebook Toy.types) tt))) = 13.
Proof.
  split; [reflexivity|].
  destruct (handles_flow_to_the_later_cells Toy.types unit Toy.lib_a tt eq_refl)
    as (l1 & c1 & i1 & l2 & em & ds & db & rt & m & qa & a3 & c2 & i2 & a4 & H).
  rewrite H. reflexivity.
Defined.

(** X8. The expression of line 202 never raises, whatever list it is
    given: indexing [docs] over [range(len(docs))] stays in range, so the
    result is the [page_content] of all the documents, in order, joined
    without a separator, and the empty string for no document. *)
Theorem comprehension_never_raises (docs : list Document) :
  qdocs_of docs = inr (String.concat "" (map page_content docs)) /\
  qdocs_of [] = inr "".
Proof.
  split; [apply qdocs_of_join | reflexivity].
Qed.

(** ** Two runs that differ only in the replies *)

(** One step of two runs side by side.  A call that handles no reply
    returns the same or raises the same in both; an answer-producing call
    and the display of a reply may do one thing in one run and another in
    the other; the states left behind stay related. *)
Ltac pair_step R lib1 lib2 Hres Hsame Hdisp :=
  match goal with
  | HR : R ?w1 ?w2 |- context [lib1 ?X ?c1 ?w1] =>
      match goal with
      | |- context [lib2 X ?c2 w2] =>
          lazymatch c1 with
          | display_Markdown ?d1 =>
              lazymatch c2 with
              | display_Markdown ?d2 =>
                  generalize (Hdisp d1 d2 w1 w2 HR);
                  destruct (lib1 X c1 w1) as [[?e|?x] ?w];
                  destruct (lib2 X c2 w2) as [[?e|?x] ?w];
                  cbn [fst snd]; clear HR; intros HR
              end
          | _ =>
              first
                [ generalize (Hres X c1 w1 w2 HR eq_refl) (Hsame X c1 w1 w2 HR);
                  destruct (lib1 X c1 w1) as [[?e|?x] ?w];
                  destruct (lib2 X c1 w2) as [[?e|?x] ?w];
                  cbn [fst snd]; clear HR;
                  let Hf := fresh "Hf" in
                  intros Hf HR;
                  first [discriminate Hf | injection Hf as <-]
                | generalize (Hsame X c1 w1 w2 HR);
                  destruct (lib1 X c1 w1) as [[?e|?x] ?w];
                  destruct (lib2 X c1 w2) as [[?e|?x] ?w];
                  cbn [fst snd]; clear HR; intros HR ]
          end
      end
  end;
  cbn [run after trace outcome world bind lift app].

Ltac pair_walk R lib1 lib2 Hres Hsame Hdisp :=
  let Q := fresh "Q" in
  match goal with
  | |- context [run lib1 (notebook ?T) ?w1] =>
      match goal with
      | |- context [run lib2 (notebook T) ?w2] =>
          pattern (run lib1 (notebook T) w1), (run lib2 (notebook T) w2)
      end
  end;
  match goal with |- ?P _ _ => set (Q := P) end;
  open_notebook; cbn [run after trace outcome world bind lift app];
  repeat first [ own_step; cbn [run after trace outcome world bind lift app]
               | pair_step R lib1 lib2 Hres Hsame Hdisp ];
  subst Q; cbv beta;
  cbn [after trace outcome world app outputs plain_requests plain_request
       flat_map hd_error].

Ltac extends :=
  unfold one_extends_the_other, initial_part;
  first [ left; eexists; reflexivity | right; eexists; reflexivity ].

Ltac both_complete :=
  let H1 := fresh in
  let H2 := fresh in
  intros H1 H2; first [discriminate H1 | discriminate H2 | reflexivity].

Lemma replies_noninterference
    (T : LibTypes) (W : Type) (R : W -> W -> Prop)
    (lib1 lib2 : Library T W) (w1 w2 : W) :
  differ_only_in_replies R lib1 lib2 -> R w1 w2 ->
  one_extends_the_other (outputs (trace (run lib1 (notebook T) w1)))
                        (outputs (trace (run lib2 (notebook T) w2))) /\
  (outcome (run lib1 (notebook T) w1) = inr tt ->
   outcome (run lib2 (notebook T) w2) = inr tt ->
   outputs (trace (run lib1 (notebook T) w1))
   = outputs (trace (run lib2 (notebook T) w2))) /\
  hd_error (outputs (trace (run lib1 (notebook T) w1)))
  = hd_error (outputs (trace (run lib2 (notebook T) w2))) /\
  one_extends_the_other (plain_requests (trace (run lib1 (notebook T) w1)))
                        (plain_requests (trace (run lib2 (notebook T) w2))) /\
  (outcome (run lib1 (notebook T) w1) = inr tt ->
   outcome (run lib2 (notebook T) w2) = inr tt ->
   plain_requests (trace (run lib1 (notebook T) w1))
   = plain_requests (trace (run lib2 (notebook T) w2))).
Proof.
  intros (Hres & Hsame & Hdisp) HR.
  pair_walk R lib1 lib2 Hres Hsame Hdisp.
  all: (split; [extends|]; split; [both_complete|]; split; [reflexivity|];
     split; [extends|both_complete]).
Qed.

Lemma toy_differ_only_in_replies (catalog : list Document)
    (reply1 reply2 : string -> PyExn + string) :
  differ_only_in_replies eq (Toy.library catalog reply1)
                            (Toy.library catalog reply2).
Proof.
  split; [|split].
  - intros X c w1 w2 _ Hc. destruct c; first [discriminate Hc | reflexivity].
  - intros X c w1 w2 _.
    destruct (snd (Toy.library catalog reply1 X c w1)),
             (snd (Toy.library catalog reply2 X c w2)).
    reflexivity.
  - intros d1 d2 w1 w2 _.
    destruct (snd (Toy.library catalog reply1 unit (display_Markdown d1) w1)),
             (snd (Toy.library catalog reply2 unit (display_Markdown d2) w2)).
    reflexivity.
Qed.

(** C8, as stated, fails: what line 111 shows ([df.head()]) comes before
    any answer is asked for, and is the same in any two runs that differ
    only in the language model's replies. *)
Lemma df_head_output_is_llm_independent :
  ~ every_output_depends_on_llm Toy.types unit.
Proof.
  intros Hall. apply (Hall 111).
  - exists Toy.lib_a, tt. vm_compute. discriminate.
  - intros R lib1 lib2 w1 w2 Hdiff HR.
    rewrite !first_output_is_line_111.
    destruct (replies_noninterference Toy.types unit R lib1 lib2 w1 w2 Hdiff HR)
      as (_ & _ & Hhd & _).
    rewrite Hhd. reflexivity.
Qed.

(** C8, amended. Take two runs in which the libraries behave alike
    except for the replies.  What line 111 shows ([df.head()]) is the same
    in both.  The notebook's other outputs ([docs[0]], the length and the
    first components of the embedding, the number of retrieved documents,
    the first of them, [qdocs]) depend on the replies only in that a
    reply can end a run early, when an answer-producing call or
    [display(Markdown(reply))] raises: the outputs of one run are an
    initial part of those of the other, and they are the same when both
    runs complete.  In each run, what is handed to
    [display(Markdown(...))] is the replies the run obtained, in order. *)
Theorem a_reply_can_only_cut_the_outputs_short
    (T : LibTypes) (W : Type) (R : W -> W -> Prop)
    (lib1 lib2 : Library T W) (w1 w2 : W) :
  differ_only_in_replies R lib1 lib2 -> R w1 w2 ->
  shown_at 111 (trace (run lib1 (notebook T) w1))
  = shown_at 111 (trace (run lib2 (notebook T) w2)) /\
  one_extends_the_other (outputs (trace (run lib1 (notebook T) w1)))
                        (outputs (trace (run lib2 (notebook T) w2))) /\
  (outcome (run lib1 (notebook T) w1) = inr tt ->
   outcome (run lib2 (notebook T) w2) = inr tt ->
   outputs (trace (run lib1 (notebook T) w1))
   = outputs (trace (run lib2 (notebook T) w2))) /\
  initial_part (handed_to_display (trace (run lib1 (notebook T) w1)))
               (answers (trace (run lib1 (notebook T) w1))) /\
  initial_part (handed_to_display (trace (run lib2 (notebook T) w2)))
               (answers (trace (run lib2 (notebook T) w2))).
Proof.
  intros Hdiff HR.
  destruct (replies_noninterference T W R lib1 lib2 w1 w2 Hdiff HR)
    as (Hext & Hsame & Hhd & _).
  split.
  - rewrite !first_output_is_line_111, Hhd. reflexivity.
  - split; [exact Hext|]. split; [exact Hsame|].
    split; [exact (proj1 (shown_facts T W lib1 w1))
           |exact (proj1 (shown_facts T W lib2 w2))].
Qed.

(** Two runs on the two-row catalog.  In the first the model answers with
    a table and the run completes; in the second its reply is ["."], the
    display of line 127 raises, and the run shows the output of line 111
    only. *)
Lemma a_reply_can_only_cut_the_outputs_short_witness :
  differ_only_in_replies eq Toy.lib_a Toy.lib_dot /\
  outcome (run Toy.lib_a (notebook Toy.types) tt) = inr tt /\
  outcome (run Toy.lib_dot (notebook Toy.types) tt) = inl Toy.is_a_directory /\
  List.length (outputs (trace (run Toy.lib_a (notebook Toy.types) tt))) = 7 /\
  List.length (outputs (trace (run Toy.lib_dot (notebook Toy.types) tt))) = 1 /\
  shown_at 111 (trace (run Toy.lib_a (notebook Toy.types) tt))
  = shown_at 111 (trace (run Toy.lib_dot (notebook Toy.types) tt)) /\
  one_extends_the_other
    (outputs (trace (run Toy.lib_a (notebook Toy.types) tt)))
    (outputs (trace (run Toy.lib_dot (notebook Toy.types) tt))).
Proof.
  split; [apply toy_differ_only_in_replies|].
  split; [reflexivity|]. split; [reflexivity|].
  split; [reflexivity|]. split; [reflexivity|].
  pose proof (a_reply_can_only_cut_the_outputs_short Toy.types unit eq
                Toy.lib_a Toy.lib_dot tt tt
                (toy_differ_only_in_replies Toy.catalog _ _) eq_refl) as H.
  split; [exact (proj1 H) | exact (proj1 (proj2 H))].
Defined.

(** ** What is sent to the libraries *)

(** X9. A reply is sent on to [display(Markdown(...))] and nowhere else.
    Take two runs in which the libraries behave alike except for the
    replies: the library calls other than [display(Markdown(...))], with
    all their arguments, are those of one run an initial part of those of
    the other, and the same when both runs complete. *)
Theorem replies_are_sent_to_the_display_only
    (T : LibTypes) (W : Type) (R : W -> W -> Prop)
    (lib1 lib2 : Library T W) (w1 w2 : W) :
  differ_only_in_replies R lib1 lib2 -> R w1 w2 ->
  one_extends_the_other (plain_requests (trace (run lib1 (notebook T) w1)))
                        (plain_requests (trace (run lib2 (notebook T) w2))) /\
  (outcome (run lib1 (notebook T) w1) = inr tt ->
   outcome (run lib2 (notebook T) w2) = inr tt ->
   plain_requests (trace (run lib1 (notebook T) w1))
   = plain_requests (trace (run lib2 (notebook T) w2))).
Proof.
  intros Hdiff HR.
  destruct (replies_noninterference T W R lib1 lib2 w1 w2 Hdiff HR)
    as (_ & _ & _ & Hext & Hsame).
  split; [exact Hext | exact Hsame].
Qed.

(** Two complete runs on the two-row catalog whose answers differ. *)
Lemma replies_are_sent_to_the_display_only_witness :
  differ_only_in_replies eq Toy.lib_a Toy.lib_b /\
  outcome (run Toy.lib_a (notebook Toy.types) tt) = inr tt /\
  outcome (run Toy.lib_b (notebook Toy.types) tt) = inr tt /\
  answers (trace (run Toy.lib_a (notebook Toy.types) tt))
  <> answers (trace (run Toy.lib_b (notebook Toy.types) tt)) /\
  plain_requests (trace (run Toy.lib_a (notebook Toy.types) tt))
  = plain_requests (trace (run Toy.lib_b (notebook Toy.types) tt)).
Proof.
  split; [apply toy_differ_only_in_replies|].
  split; [reflexivity|]. split; [reflexivity|].
  split; [vm_compute; discriminate|].
  exact (proj2 (replies_are_sent_to_the_display_only Toy.types unit eq
                  Toy.lib_a Toy.lib_b tt tt
                  (toy_differ_only_in_replies Toy.catalog _ _) eq_refl)
           eq_refl eq_refl).
Defined.
